(** * go-outline: the outline builder of [main.go]

    A shallow embedding of [main], [getReceiverType] and [reportError] of
    [src/main.go], with the parts of [go/token] and [go/ast] they read.

    The program is one synchronous pass: resolve the source (disk or overlay
    archive), parse it, walk the top-level declarations, wrap the nodes built
    under one [package] node and print that node as JSON.  Its effects are two
    output streams and run-time panics; they are threaded through the [Run]
    monad below.  The Go libraries the program calls ([go/parser],
    [go/format], [buildutil]) are taken as an interface, [GoLib]. *)

From stdpp Require Import base strings list gmap pretty.

Set Warnings "-register-all".

#[local] Open Scope Z_scope.
#[local] Open Scope string_scope.
#[local] Open Scope list_scope.

(** ** Go values *)

(** A Go [error] value is kept as its message. *)
Definition error := string.

(** A Go slice is [nil] ([None]) or holds its elements; [len] and [append]
    do not tell the two apart, a [nil] test does. *)
Definition slice (A : Type) := option (list A).

Definition elems {A} (s : slice A) : list A :=
  match s with Some l => l | None => [] end.

Definition len {A} (s : slice A) : nat := length (elems s).

Definition append {A} (s : slice A) (x : A) : slice A := Some (elems s ++ [x]).

(** ** go/token *)
Module token.

(** [token.Pos] is an [int]; [NoPos] is its zero value. *)
Definition Pos := Z.
Definition NoPos : Pos := 0.

(** The keywords a [GenDecl] is introduced by. *)
Inductive Token := IMPORT | CONST | TYPE | VAR.

Definition Token_eqb (a b : Token) : bool :=
  match a, b with
  | IMPORT, IMPORT | CONST, CONST | TYPE, TYPE | VAR, VAR => true
  | _, _ => false
  end.

End token.

(** ** go/ast

    Only what [main.go] reads is kept.  Where the program asks a node for its
    [Pos()] or [End()] and go/ast computes the answer from sub-nodes the
    program never looks at (a function's type and body, a type spec's type, a
    general declaration's closing parenthesis), the node carries that answer
    as a field. *)
Module ast.

Record Ident := { NamePos : token.Pos; Name : string }.

Definition Ident_Pos (x : Ident) : token.Pos := NamePos x.
Definition Ident_End (x : Ident) : token.Pos :=
  NamePos x + Z.of_nat (String.length (Name x)).
Definition Ident_String (x : Ident) : string := Name x.

Record BasicLit := { ValuePos : token.Pos; Value : string }.

Definition BasicLit_Pos (x : BasicLit) : token.Pos := ValuePos x.

(** [End()] as go/ast computes it from the value (the releases before
    [BasicLit] had a [ValueEnd] field). *)
Definition BasicLit_End (x : BasicLit) : token.Pos :=
  ValuePos x + Z.of_nat (String.length (Value x)).

(** Expressions.  [main.go] never looks inside one: it hands the type of a
    receiver field to the formatter.  The shapes a receiver type usually has
    are spelled out; [OtherExpr] stands for every other node of go/ast (an
    array, map, channel, function, struct or interface type, ...), by its
    text in gofmt's form. *)
Inductive Expr :=
| BadExpr (From To : token.Pos)
| IdentExpr (id : Ident)
| StarExpr (Star : token.Pos) (X : Expr)
| ParenExpr (X : Expr)
| SelectorExpr (X : Expr) (Sel : Ident)
| IndexExpr (X : Expr) (Index : Expr)
| IndexListExpr (X : Expr) (Indices : list Expr)
| OtherExpr (text : string).

Record Field := { Field_Names : list Ident; Field_Type : Expr }.

Record FieldList :=
  { Opening : token.Pos; List : list Field; Closing : token.Pos }.

Record FuncDecl :=
  { Recv : option FieldList;      (* nil for a plain function *)
    FuncDecl_Name : Ident;
    FuncDecl_Pos : token.Pos;     (* Type.Pos() *)
    FuncDecl_End : token.Pos }.   (* Body.End(), or Type.End() *)

Record ImportSpec :=
  { ImportSpec_Name : option Ident;
    Path : BasicLit;
    EndPos : token.Pos }.

Definition ImportSpec_Pos (s : ImportSpec) : token.Pos :=
  match ImportSpec_Name s with
  | Some n => Ident_Pos n
  | None => BasicLit_Pos (Path s)
  end.

Definition ImportSpec_End (s : ImportSpec) : token.Pos :=
  if bool_decide (EndPos s ≠ 0) then EndPos s else BasicLit_End (Path s).

Record TypeSpec :=
  { TypeSpec_Name : Ident;
    TypeSpec_TypeEnd : token.Pos }.   (* Type.End() *)

Definition TypeSpec_Pos (s : TypeSpec) : token.Pos := Ident_Pos (TypeSpec_Name s).
Definition TypeSpec_End (s : TypeSpec) : token.Pos := TypeSpec_TypeEnd s.

Record ValueSpec := { ValueSpec_Names : list Ident }.

(** [ast.Spec] is a sealed interface: these three are its implementations. *)
Inductive Spec :=
| ImportSpecS (s : ImportSpec)
| ValueSpecS (s : ValueSpec)
| TypeSpecS (s : TypeSpec).

Record GenDecl :=
  { TokPos : token.Pos;
    Tok : token.Token;
    Specs : list Spec;
    GenDecl_End : token.Pos }.

(** [ast.Decl] is sealed too; a [BadDecl] stands for source text the
    parser could not read as a declaration. *)
Inductive Decl :=
| BadDeclD (From To : token.Pos)
| GenDeclD (d : GenDecl)
| FuncDeclD (d : FuncDecl).

Definition Decl_Pos (d : Decl) : token.Pos :=
  match d with
  | BadDeclD from _ => from
  | GenDeclD g => TokPos g
  | FuncDeclD f => FuncDecl_Pos f
  end.

Definition Decl_End (d : Decl) : token.Pos :=
  match d with
  | BadDeclD _ to => to
  | GenDeclD g => GenDecl_End g
  | FuncDeclD f => FuncDecl_End f
  end.

Record File :=
  { Package : token.Pos;      (* position of the "package" keyword *)
    File_Name : Ident;
    Decls : list Decl }.

Definition File_Pos (f : File) : token.Pos := Package f.

Definition File_End (f : File) : token.Pos :=
  match last (Decls f) with
  | Some d => Decl_End d
  | None => Ident_End (File_Name f)
  end.

End ast.

(** ** go/parser *)
Module parser.
Inductive Mode := ParseComments | ImportsOnly.
End parser.

(** ** Declaration (main.go, lines 17-24) *)
Inductive Declaration := mkDeclaration
  { Label : string;
    Type_ : string;
    ReceiverType : string;
    Start : token.Pos;
    End : token.Pos;
    Children : slice Declaration }.

(** ** JSON values, and the encoding the struct tags of [Declaration] ask for

    A value is what the encoder is handed, field by field: which keys the
    object has, in which order, and the Go value under each.  [Str s] is the
    Go string [s]; how the encoder then spells a string in its output
    (escapes, U+FFFD for bytes that are not UTF-8) is the encoder's own and
    is not modelled. *)
Module json.

Inductive Value :=
| Null
| Number (n : Z)
| Str (s : string)
| Array (l : list Value)
| Object (fields : list (string * Value)).

(** A member of an object, by key. *)
Fixpoint member (k : string) (fields : list (string * Value)) : option Value :=
  match fields with
  | [] => None
  | (k', v) :: rest => if bool_decide (k' = k) then Some v else member k rest
  end.

Definition get (k : string) (v : Value) : option Value :=
  match v with
  | Object fields => member k fields
  | _ => None
  end.

(** [omitempty] on a string field. *)
Definition omitempty_string (k s : string) : list (string * Value) :=
  match s with
  | EmptyString => []
  | _ => [(k, Str s)]
  end.

Fixpoint marshalDeclaration (d : Declaration) : Value :=
  match d with
  | mkDeclaration label type receiverType start end_ children =>
      Object
        ([("label", Str label); ("type", Str type)]
         ++ omitempty_string "receiverType" receiverType
         ++ [("start", Number start); ("end", Number end_)]
         ++ match children with
            | Some (c :: cs) =>
                [("children", Array (map marshalDeclaration (c :: cs)))]
            | _ => []        (* omitempty: nil or of length 0 *)
            end)
  end.

(** [json.Marshal] of a non-nil [[]*Declaration]. *)
Definition Marshal (pkg : list Declaration) : Value :=
  Array (map marshalDeclaration pkg).

End json.

(** ** Runs: two output streams, and panics *)

(** Each stream holds one entry per call that writes to it: on [Stdout] the
    value whose encoding [fmt.Println] is handed, on [Stderr] the text
    [fmt.Fprintln] is handed, without the line feed it adds.  A text that
    itself holds a line feed is more than one line of the stream. *)
Record World :=
  { Stdout : list json.Value;
    Stderr : list string }.

(** A Go call returns, or panics; a panic that nothing recovers ends the
    process (what the runtime itself then writes on standard error is not
    kept in [Stderr]). *)
Inductive Outcome (A : Type) :=
| Done (a : A)
| Panic (msg : string).
Arguments Done {A} a.
Arguments Panic {A} msg.

Definition Run (A : Type) := World -> Outcome A * World.

#[export] Instance Run_ret : MRet Run := fun A a w => (Done a, w).

#[export] Instance Run_bind : MBind Run := fun A B k c w =>
  match c w with
  | (Done a, w') => k a w'
  | (Panic msg, w') => (Panic msg, w')
  end.

Definition panic {A} (msg : string) : Run A := fun w => (Panic msg, w).

(** [fmt.Println] of an encoded value on standard output. *)
Definition Println (v : json.Value) : Run unit := fun w =>
  (Done (), {| Stdout := Stdout w ++ [v]; Stderr := Stderr w |}).

(** [fmt.Fprintln(os.Stderr, ...)]. *)
Definition Fprintln_Stderr (line : string) : Run unit := fun w =>
  (Done (), {| Stdout := Stdout w; Stderr := Stderr w ++ [line] |}).

(** A [for ... range] loop whose body updates one variable. *)
Fixpoint forRange {A B} (l : list B) (body : A -> B -> Run A) (a : A) : Run A :=
  match l with
  | [] => mret a
  | x :: rest => a' ← body a x; forRange rest body a'
  end.

(** The exit status of the process: 0 when [main] returns, 2 after a panic. *)
Definition exitStatus {A} (o : Outcome A) : Z :=
  match o with Done _ => 0 | Panic _ => 2 end.

(** ** The libraries [main.go] calls *)
Class GoLib :=
  { (** [buildutil.ParseOverlayArchive]: the archive read from standard
        input, as a map from path to content (the empty map for Go's [nil]
        map: a lookup tells no difference), and the error. *)
    ParseOverlayArchive : string -> gmap string string * option error;
    (** [parser.ParseFile fset filename src mode].  [src = None] is Go's
        [nil]: the parser reads [filename] from disk; [src = Some bytes] is a
        [[]byte] (a [nil] one too, boxed in the interface): the parser reads
        [bytes] and leaves the disk alone.  The result is the pair Go
        returns, a [nil] file being [None]. *)
    ParseFile : string -> option string -> parser.Mode -> option ast.File * option error;
    (** [format.Node buf fset node] for an expression: the text written to
        [buf], and the error. *)
    format_Node : ast.Expr -> string * option error }.

(** The command line and standard input of one run. *)
Record Env :=
  { file : string;          (* -f *)
    importsOnly : bool;     (* -imports-only *)
    modified : bool;        (* -modified *)
    Stdin : string }.

(** ** main.go *)

(** Lines 149-151. *)
Definition reportError (err : error) : Run unit :=
  Fprintln_Stderr ("error: " +:+ err).

Section Program.
Context `{GoLib}.

(** Lines 136-147.  [decl.Recv.List[0]] panics on an empty list. *)
Definition getReceiverType (decl : ast.FuncDecl) : Run (string * option error) :=
  match ast.Recv decl with
  | None => mret ("", None)
  | Some recv =>
      match ast.List recv !! 0%nat with
      | None => panic "runtime error: index out of range [0] with length 0"
      | Some field =>
          match format_Node (ast.Field_Type field) with
          | (_, Some err) => mret ("", Some err)
          | (buf, None) => mret (buf, None)
          end
      end
  end.

(** Lines 79-118, the body of the loop over [decl.Specs].  The [default]
    case of the type switch has no [ast.Spec] to run on. *)
Definition main_spec (decl : ast.GenDecl) (declarations : slice Declaration)
    (spec : ast.Spec) : Run (slice Declaration) :=
  match spec with
  | ast.ImportSpecS spec =>
      mret (append declarations
              {| Label := ast.Value (ast.Path spec);
                 Type_ := "import";
                 ReceiverType := "";
                 Start := ast.ImportSpec_Pos spec;
                 End := ast.ImportSpec_End spec;
                 Children := Some [] |})
  | ast.TypeSpecS spec =>
      mret (append declarations
              {| Label := ast.Ident_String (ast.TypeSpec_Name spec);
                 Type_ := "type";
                 ReceiverType := "";
                 Start := ast.TypeSpec_Pos spec;
                 End := ast.TypeSpec_End spec;
                 Children := Some [] |})
  | ast.ValueSpecS spec =>
      forRange (ast.ValueSpec_Names spec) (fun declarations id =>
        let varOrConst :=
          if token.Token_eqb (ast.Tok decl) token.CONST then "constant" else "variable" in
        mret (append declarations
                {| Label := ast.Name id;
                   Type_ := varOrConst;
                   ReceiverType := "";
                   Start := ast.Ident_Pos id;
                   End := ast.Ident_End id;
                   Children := Some [] |})) declarations
  end.

(** Lines 63-121, the body of the loop over [fileAst.Decls]. *)
Definition main_decl (declarations : slice Declaration) (decl : ast.Decl)
    : Run (slice Declaration) :=
  match decl with
  | ast.FuncDeclD decl =>
      '(receiverType, err) ← getReceiverType decl;
      match err with
      | Some err => reportError ("failed to parse receiver type: " +:+ err)
      | None => mret ()
      end;;
      mret (append declarations
              {| Label := ast.Ident_String (ast.FuncDecl_Name decl);
                 Type_ := "function";
                 ReceiverType := receiverType;
                 Start := ast.FuncDecl_Pos decl;
                 End := ast.FuncDecl_End decl;
                 Children := Some [] |})
  | ast.GenDeclD decl =>
      forRange (ast.Specs decl) (main_spec decl) declarations
  | ast.BadDeclD _ _ =>
      reportError ("unknown declaration @ " +:+ pretty (ast.Decl_Pos decl));;
      mret declarations
  end.

(** Lines 35-38. *)
Definition parserMode (e : Env) : parser.Mode :=
  if importsOnly e then parser.ImportsOnly else parser.ParseComments.

(** Lines 40-55.  The [err] that line 44 declares with [:=] lives in the
    block of the [if]; line 52 assigns to it, and the [err] of line 41,
    the one line 57 tests, keeps its zero value on this branch. *)
Definition main_parse (e : Env) : Run (option ast.File * option error) :=
  if modified e then
    let '(archive, err) := ParseOverlayArchive (Stdin e) in
    match err with
    | Some err => reportError ("failed to parse -modified archive: " +:+ err)
    | None => mret ()
    end;;
    let fc := default "" (archive !! file e) in
    let ok := bool_decide (is_Some (archive !! file e)) in
    (if ok then mret () else reportError ("couldn't find " +:+ file e +:+ " in archive"));;
    let '(fileAst, err) := ParseFile (file e) (Some fc) (parserMode e) in
    mret (fileAst, None)
  else
    mret (ParseFile (file e) None (parserMode e)).

(** Lines 32-131: [main] up to the value of [pkg]. *)
Definition main_pkg (e : Env) : Run (list Declaration) :=
  '(fileAst, err) ← main_parse e;
  match err with
  | Some _ => reportError ("could not parse file " +:+ file e)
  | None => mret ()
  end;;
  match fileAst with
  | None => panic "runtime error: invalid memory address or nil pointer dereference"
  | Some fileAst =>
      declarations ← forRange (ast.Decls fileAst) main_decl (Some []);
      mret [ {| Label := ast.Ident_String (ast.File_Name fileAst);
                Type_ := "package";
                ReceiverType := "";
                Start := ast.File_Pos fileAst;
                End := ast.File_End fileAst;
                Children := declarations |} ]
  end.

(** Lines 32-134. *)
Definition main (e : Env) : Run unit :=
  pkg ← main_pkg e;
  Println (json.Marshal pkg).

End Program.

(** A run of the program from empty output streams. *)
Definition noOutput : World := {| Stdout := []; Stderr := [] |}.

Definition run `{GoLib} (e : Env) : Outcome unit * World := main e noOutput.

(** ** The outline, said without the loops

    What sections 4.2 and 4.3 of the design say the walk builds: the nodes of
    one spec, of one declaration, of a file, and the root.  The theorems below
    compare the program with them. *)
Section Outline.
Context `{GoLib}.

(** Section 4.2: the text of the receiver's type, empty for a plain
    function (and where nothing could be rendered). *)
Definition renderReceiver (decl : ast.FuncDecl) : string :=
  match ast.Recv decl with
  | Some {| ast.List := field :: _ |} =>
      match format_Node (ast.Field_Type field) with
      | (text, None) => text
      | (_, Some _) => ""
      end
  | _ => ""
  end.

Definition funcNode (decl : ast.FuncDecl) : Declaration :=
  mkDeclaration (ast.Name (ast.FuncDecl_Name decl)) "function" (renderReceiver decl)
    (ast.FuncDecl_Pos decl) (ast.FuncDecl_End decl) (Some []).

Definition importNode (spec : ast.ImportSpec) : Declaration :=
  mkDeclaration (ast.Value (ast.Path spec)) "import" ""
    (ast.ImportSpec_Pos spec) (ast.ImportSpec_End spec) (Some []).

Definition typeNode (spec : ast.TypeSpec) : Declaration :=
  mkDeclaration (ast.Name (ast.TypeSpec_Name spec)) "type" ""
    (ast.TypeSpec_Pos spec) (ast.TypeSpec_End spec) (Some []).

Definition valueKind (tok : token.Token) : string :=
  match tok with token.CONST => "constant" | _ => "variable" end.

Definition valueNode (tok : token.Token) (id : ast.Ident) : Declaration :=
  mkDeclaration (ast.Name id) (valueKind tok) ""
    (ast.Ident_Pos id) (ast.Ident_End id) (Some []).

Definition nodesOfSpec (tok : token.Token) (spec : ast.Spec) : list Declaration :=
  match spec with
  | ast.ImportSpecS s => [importNode s]
  | ast.TypeSpecS s => [typeNode s]
  | ast.ValueSpecS s => map (valueNode tok) (ast.ValueSpec_Names s)
  end.

Definition nodesOfDecl (decl : ast.Decl) : list Declaration :=
  match decl with
  | ast.FuncDeclD d => [funcNode d]
  | ast.GenDeclD d => flat_map (nodesOfSpec (ast.Tok d)) (ast.Specs d)
  | ast.BadDeclD _ _ => []
  end.

Definition nodesOfFile (f : ast.File) : list Declaration :=
  flat_map nodesOfDecl (ast.Decls f).

Definition rootNode (f : ast.File) : Declaration :=
  mkDeclaration (ast.Name (ast.File_Name f)) "package" ""
    (ast.File_Pos f) (ast.File_End f) (Some (nodesOfFile f)).

(** The lines [reportError] prints while one declaration is walked. *)
Definition errorsOfDecl (decl : ast.Decl) : list string :=
  match decl with
  | ast.FuncDeclD {| ast.Recv := Some {| ast.List := field :: _ |} |} =>
      match format_Node (ast.Field_Type field) with
      | (_, Some err) => ["error: failed to parse receiver type: " +:+ err]
      | (_, None) => []
      end
  | ast.BadDeclD from _ => ["error: unknown declaration @ " +:+ pretty from]
  | _ => []
  end.

(** A receiver clause, when there is one, lists a field. *)
Definition receiverOK (decl : ast.Decl) : Prop :=
  match decl with
  | ast.FuncDeclD {| ast.Recv := Some {| ast.List := [] |} |} => False
  | _ => True
  end.

#[export] Instance receiverOK_dec decl : Decision (receiverOK decl).
Proof.
  destruct decl as [? ?|?|[[[? [|? ?] ?]|] ? ? ?]]; simpl; apply _.
Defined.

(** Section 4.1: what the parser is handed as source. *)
Definition sourceOf (e : Env) : option string :=
  if modified e
  then Some (default "" (fst (ParseOverlayArchive (Stdin e)) !! file e))
  else None.

(** The syntax tree and the error the parser answers with in this run. *)
Definition parsed (e : Env) : option ast.File * option error :=
  ParseFile (file e) (sourceOf e) (parserMode e).

(** The lines [reportError] prints before the walk (lines 43-59). *)
Definition errorsOfParse (e : Env) : list string :=
  if modified e then
    match snd (ParseOverlayArchive (Stdin e)) with
    | Some err => ["error: failed to parse -modified archive: " +:+ err]
    | None => []
    end
    ++ (if bool_decide (is_Some (fst (ParseOverlayArchive (Stdin e)) !! file e)) then []
        else ["error: couldn't find " +:+ file e +:+ " in archive"])
  else
    match snd (parsed e) with
    | Some _ => ["error: could not parse file " +:+ file e]
    | None => []
    end.

Definition errorsOfFile (f : ast.File) : list string :=
  flat_map errorsOfDecl (ast.Decls f).

End Outline.

(** [w] after [lines] more lines on standard error. *)
Definition logged (lines : list string) (w : World) : World :=
  {| Stdout := Stdout w; Stderr := Stderr w ++ lines |}.

(** [w] after one more value on standard output. *)
Definition printed (v : json.Value) (w : World) : World :=
  {| Stdout := Stdout w ++ [v]; Stderr := Stderr w |}.

(** The counts of section 8, each at top level only. *)
Definition isFuncDecl (d : ast.Decl) : bool :=
  match d with ast.FuncDeclD _ => true | _ => false end.

Definition isImportSpec (s : ast.Spec) : bool :=
  match s with ast.ImportSpecS _ => true | _ => false end.

Definition isTypeSpec (s : ast.Spec) : bool :=
  match s with ast.TypeSpecS _ => true | _ => false end.

(** The identifiers a value spec declares; none for another spec. *)
Definition valueIdents (s : ast.Spec) : nat :=
  match s with ast.ValueSpecS v => length (ast.ValueSpec_Names v) | _ => 0%nat end.

Definition specsOfDecl (d : ast.Decl) : list ast.Spec :=
  match d with ast.GenDeclD g => ast.Specs g | _ => [] end.

Definition topLevelSpecs (f : ast.File) : list ast.Spec :=
  flat_map specsOfDecl (ast.Decls f).

Definition countFuncs (f : ast.File) : nat :=
  length (List.filter isFuncDecl (ast.Decls f)).

Definition countImportSpecs (f : ast.File) : nat :=
  length (List.filter isImportSpec (topLevelSpecs f)).

Definition countTypeSpecs (f : ast.File) : nat :=
  length (List.filter isTypeSpec (topLevelSpecs f)).

Definition countValueIdents (f : ast.File) : nat :=
  sum_list_with valueIdents (topLevelSpecs f).

(** ** Sample files and a library double

    The sources the examples run on, with the syntax trees go/parser builds
    for them (positions are 1-based byte offsets, the file set's base being
    1), and an instance of [GoLib] that answers on exactly these. *)

Definition nl : string := String (Ascii.ascii_of_nat 10) "".
Definition quoted (s : string) : string :=
  String (Ascii.ascii_of_nat 34) s +:+ String (Ascii.ascii_of_nat 34) "".

Definition ident (pos : token.Pos) (name : string) : ast.Ident :=
  {| ast.NamePos := pos; ast.Name := name |}.

(** sample.go, 112 bytes. *)
Definition sample_src : string :=
  "package p" +:+ nl +:+ nl +:+
  "import " +:+ quoted "fmt" +:+ nl +:+ nl +:+
  "type Foo struct{}" +:+ nl +:+ nl +:+
  "const a, b = 1, 2" +:+ nl +:+ nl +:+
  "var x int" +:+ nl +:+ nl +:+
  "func (r *Foo) Bar() {}" +:+ nl +:+ nl +:+
  "func Baz() {}" +:+ nl.

Definition sample_import : ast.ImportSpec :=
  {| ast.ImportSpec_Name := None;
     ast.Path := {| ast.ValuePos := 19; ast.Value := quoted "fmt" |};
     ast.EndPos := 0 |}.

Definition sample_consts : ast.ValueSpec :=
  {| ast.ValueSpec_Names := [ident 51 "a"; ident 54 "b"] |}.

Definition sample_const_decl : ast.GenDecl :=
  {| ast.TokPos := 45; ast.Tok := token.CONST;
     ast.Specs := [ast.ValueSpecS sample_consts];
     ast.GenDecl_End := 62 |}.

Definition sample_import_decl : ast.GenDecl :=
  {| ast.TokPos := 12; ast.Tok := token.IMPORT;
     ast.Specs := [ast.ImportSpecS sample_import];
     ast.GenDecl_End := 24 |}.

Definition sample_type_decl : ast.GenDecl :=
  {| ast.TokPos := 26; ast.Tok := token.TYPE;
     ast.Specs := [ast.TypeSpecS
                     {| ast.TypeSpec_Name := ident 31 "Foo"; ast.TypeSpec_TypeEnd := 43 |}];
     ast.GenDecl_End := 43 |}.

Definition sample_var_decl : ast.GenDecl :=
  {| ast.TokPos := 64; ast.Tok := token.VAR;
     ast.Specs := [ast.ValueSpecS {| ast.ValueSpec_Names := [ident 68 "x"] |}];
     ast.GenDecl_End := 73 |}.

(** [func (r *Foo) Bar() {}] *)
Definition sample_receiver : ast.Field :=
  {| ast.Field_Names := [ident 81 "r"];
     ast.Field_Type := ast.StarExpr 83 (ast.IdentExpr (ident 84 "Foo")) |}.

Definition sample_method : ast.FuncDecl :=
  {| ast.Recv := Some {| ast.Opening := 80; ast.List := [sample_receiver]; ast.Closing := 87 |};
     ast.FuncDecl_Name := ident 89 "Bar";
     ast.FuncDecl_Pos := 75;
     ast.FuncDecl_End := 97 |}.

(** [func Baz() {}] *)
Definition sample_func : ast.FuncDecl :=
  {| ast.Recv := None;
     ast.FuncDecl_Name := ident 104 "Baz";
     ast.FuncDecl_Pos := 99;
     ast.FuncDecl_End := 112 |}.

(** [func (s *Stack[T]) Push() {}], in a file of its own. *)
Definition generic_method : ast.FuncDecl :=
  {| ast.Recv :=
       Some {| ast.Opening := 17;
               ast.List :=
                 [ {| ast.Field_Names := [ident 18 "s"];
                      ast.Field_Type :=
                        ast.StarExpr 20
                          (ast.IndexExpr (ast.IdentExpr (ident 21 "Stack"))
                                         (ast.IdentExpr (ident 27 "T"))) |} ];
               ast.Closing := 29 |};
     ast.FuncDecl_Name := ident 31 "Push";
     ast.FuncDecl_Pos := 12;
     ast.FuncDecl_End := 40 |}.

Definition sample_file : ast.File :=
  {| ast.Package := 1;
     ast.File_Name := ident 9 "p";
     ast.Decls := [ast.GenDeclD sample_import_decl; ast.GenDeclD sample_type_decl;
                   ast.GenDeclD sample_const_decl; ast.GenDeclD sample_var_decl;
                   ast.FuncDeclD sample_method; ast.FuncDeclD sample_func] |}.

(** With [parser.ImportsOnly] the parser stops after the imports. *)
Definition sample_file_imports : ast.File :=
  {| ast.Package := 1;
     ast.File_Name := ident 9 "p";
     ast.Decls := [ast.GenDeclD sample_import_decl] |}.

(** The file go/parser answers with, beside an error, when the source has no
    package clause: [&ast.File{Name: new(ast.Ident)}]. *)
Definition empty_file : ast.File :=
  {| ast.Package := token.NoPos; ast.File_Name := ident token.NoPos ""; ast.Decls := [] |}.

(** norecv.go, 26 bytes: a receiver clause that lists nothing.  go/parser
    takes it (go/types is where "method is missing receiver" is said). *)
Definition norecv_src : string :=
  "package p" +:+ nl +:+ nl +:+ "func () F() {}" +:+ nl.

Definition norecv_method : ast.FuncDecl :=
  {| ast.Recv := Some {| ast.Opening := 17; ast.List := []; ast.Closing := 18 |};
     ast.FuncDecl_Name := ident 20 "F";
     ast.FuncDecl_Pos := 12;
     ast.FuncDecl_End := 26 |}.

Definition norecv_file : ast.File :=
  {| ast.Package := 1; ast.File_Name := ident 9 "p";
     ast.Decls := [ast.FuncDeclD norecv_method] |}.

(** What go/printer writes for the receiver types above: a name as it is, a
    pointer with its star, type arguments in brackets, and one pair of
    parentheses for any run of nested ones. *)
Fixpoint printExpr (x : ast.Expr) : string :=
  match x with
  | ast.BadExpr _ _ => "BadExpr"
  | ast.IdentExpr id => ast.Name id
  | ast.StarExpr _ x => "*" +:+ printExpr x
  | ast.ParenExpr x =>
      match x with
      | ast.ParenExpr _ => printExpr x
      | _ => "(" +:+ printExpr x +:+ ")"
      end
  | ast.SelectorExpr x sel => printExpr x +:+ "." +:+ ast.Name sel
  | ast.IndexExpr x index => printExpr x +:+ "[" +:+ printExpr index +:+ "]"
  | ast.IndexListExpr x indices =>
      printExpr x +:+ "[" +:+ String.concat ", " (map printExpr indices) +:+ "]"
  | ast.OtherExpr text => text
  end.

(** The files on disk. *)
Definition sample_disk : gmap string string :=
  {[ "sample.go" := sample_src; "norecv.go" := norecv_src; "empty.go" := "" ]}.

(** The parser on the sample sources.  The last answer is the one for a
    source with no package clause; the empty source is the only other one the
    examples hand it. *)
Definition sample_parse (filename src : string) (mode : parser.Mode)
    : option ast.File * option error :=
  if String.eqb src sample_src then
    (Some match mode with
          | parser.ImportsOnly => sample_file_imports
          | parser.ParseComments => sample_file
          end, None)
  else if String.eqb src norecv_src then
    (Some match mode with
          | parser.ImportsOnly => {| ast.Package := 1; ast.File_Name := ident 9 "p"; ast.Decls := [] |}
          | parser.ParseComments => norecv_file
          end, None)
  else
    (Some empty_file, Some (filename +:+ ":1:1: expected 'package', found 'EOF'")).

(** The archives on standard input: one entry [a.go] of length 0, and no
    entry at all (the empty input, the only other one the examples use).  A
    file that is not on disk cannot be read: the parser answers with a [nil]
    tree and the error. *)
Definition empty_a_go : string := "a.go" +:+ nl +:+ "0" +:+ nl.

#[export] Instance sampleLib : GoLib :=
  {| ParseOverlayArchive stdin :=
       if String.eqb stdin empty_a_go then ({[ "a.go" := "" ]}, None) else (∅, None);
     ParseFile filename src mode :=
       match src with
       | Some bytes => sample_parse filename bytes mode
       | None =>
           match sample_disk !! filename with
           | Some bytes => sample_parse filename bytes mode
           | None => (None, Some ("open " +:+ filename +:+ ": no such file or directory"))
           end
       end;
     format_Node x := (printExpr x, None) |}.

(** A library whose formatter fails on every expression. *)
Definition failingFormat : GoLib :=
  {| ParseOverlayArchive := @ParseOverlayArchive sampleLib;
     ParseFile := @ParseFile sampleLib;
     format_Node _ := ("", Some "format: unsupported node type") |}.

Definition sample_env (name : string) : Env :=
  {| file := name; importsOnly := false; modified := false; Stdin := "" |}.

Definition overlay_env (name stdin : string) : Env :=
  {| file := name; importsOnly := false; modified := true; Stdin := stdin |}.

(** The outline of a source with no package clause, as printed. *)
Definition empty_outline : json.Value :=
  json.Array
    [json.Object [("label", json.Str ""); ("type", json.Str "package");
                  ("start", json.Number 0); ("end", json.Number 0)]].

(** ** Further vocabulary for the properties of whole runs *)

(** A text as [reportError] writes it (main.go, line 150). *)
Definition isReport (text : string) : Prop :=
  exists msg, text = "error: " +:+ msg.


(** A declaration as the parser leaves them in [parser.ImportsOnly] mode: a
    general declaration that holds import specs only. *)
Definition importsOnlyDecl (decl : ast.Decl) : bool :=
  match decl with
  | ast.GenDeclD g => forallb isImportSpec (ast.Specs g)
  | _ => false
  end.

(** The path literals of the import specs of a file, in source order. *)
Definition importPath (s : ast.Spec) : list string :=
  match s with ast.ImportSpecS i => [ast.Value (ast.Path i)] | _ => [] end.

Definition importPaths (f : ast.File) : list string :=
  flat_map importPath (topLevelSpecs f).

(** The sample library with nothing on disk. *)
Definition emptyDisk : GoLib :=
  {| ParseOverlayArchive := @ParseOverlayArchive sampleLib;
     ParseFile filename src mode :=
       match src with
       | Some bytes => sample_parse filename bytes mode
       | None => (None, Some ("open " +:+ filename +:+ ": no such file or directory"))
       end;
     format_Node := @format_Node sampleLib |}.

Definition imports_env (name : string) : Env :=
  {| file := name; importsOnly := true; modified := false; Stdin := "" |}.

(** An overlay archive that holds sample.go (its header, then its bytes),
    and the library that reads it. *)
Definition sample_archive : string :=
  "sample.go" +:+ nl +:+ "112" +:+ nl +:+ sample_src.

Definition archiveLib : GoLib :=
  {| ParseOverlayArchive stdin :=
       if String.eqb stdin sample_archive
       then ({[ "sample.go" := sample_src ]}, None)
       else @ParseOverlayArchive sampleLib stdin;
     ParseFile := @ParseFile sampleLib;
     format_Node := @format_Node sampleLib |}.

(** The same, with nothing on disk. *)
Definition archiveLib_emptyDisk : GoLib :=
  {| ParseOverlayArchive := @ParseOverlayArchive archiveLib;
     ParseFile := @ParseFile emptyDisk;
     format_Node := @format_Node sampleLib |}.

(** bad.go, 15 bytes: [package p], an empty line, then the line [foo].  The
    parser answers with a tree whose one declaration is a [BadDecl] from
    [foo] to the end of the file, and with the error. *)
Definition bad_file : ast.File :=
  {| ast.Package := 1; ast.File_Name := ident 9 "p";
     ast.Decls := [ast.BadDeclD 12 16] |}.

Definition badDeclLib : GoLib :=
  {| ParseOverlayArchive := @ParseOverlayArchive sampleLib;
     ParseFile filename src mode :=
       if String.eqb filename "bad.go"
       then (Some bad_file, Some "bad.go:3:1: expected declaration, found foo")
       else @ParseFile sampleLib filename src mode;
     format_Node := @format_Node sampleLib |}.

(** ** Source text and positions

    The file set of a run is fresh, so the one file parsed has base 1: the
    byte at offset [i] of the source is at position [1 + i], and the end of a
    source of [n] bytes is position [1 + n]. *)

(** A span from [start] to [end_] covers the whole source. *)
Definition spanCovers (src : string) (start end_ : token.Pos) : Prop :=
  start <= 1 /\ 1 + Z.of_nat (String.length src) <= end_.

(** The [n] bytes of the source that start at position [pos]. *)
Definition writtenAt (src : string) (pos : token.Pos) (n : nat) : string :=
  String.substring (Z.to_nat (pos - 1)) n src.

Definition cr : string := String (Ascii.ascii_of_nat 13) "".

(** header.go, 57 bytes: a comment line, the package clause, one variable,
    a comment line. *)
Definition header_src : string :=
  "// the header" +:+ nl +:+
  "package p" +:+ nl +:+ nl +:+
  "var x int" +:+ nl +:+
  "// the trailing words" +:+ nl.

Definition header_file : ast.File :=
  {| ast.Package := 15;
     ast.File_Name := ident 23 "p";
     ast.Decls :=
       [ast.GenDeclD
          {| ast.TokPos := 26; ast.Tok := token.VAR;
             ast.Specs := [ast.ValueSpecS {| ast.ValueSpec_Names := [ident 30 "x"] |}];
             ast.GenDecl_End := 35 |}] |}.

(** cr.go, 25 bytes: the import path is a raw string literal that holds a
    carriage return before its closing quote.  The scanner drops carriage
    returns from a raw string, so the literal of six bytes has a value of
    five. *)
Definition cr_src : string :=
  "package p" +:+ nl +:+ nl +:+ "import `fmt" +:+ cr +:+ "`" +:+ nl.

Definition cr_import : ast.ImportSpec :=
  {| ast.ImportSpec_Name := None;
     ast.Path := {| ast.ValuePos := 19; ast.Value := "`fmt`" |};
     ast.EndPos := 0 |}.

Definition cr_file : ast.File :=
  {| ast.Package := 1;
     ast.File_Name := ident 9 "p";
     ast.Decls :=
       [ast.GenDeclD
          {| ast.TokPos := 12; ast.Tok := token.IMPORT;
             ast.Specs := [ast.ImportSpecS cr_import];
             ast.GenDecl_End := 24 |}] |}.

(** The sample library with these two files on disk as well. *)
Definition edge_disk : gmap string string :=
  {[ "header.go" := header_src; "cr.go" := cr_src ]}.

Definition edge_parse (filename src : string) (mode : parser.Mode)
    : option ast.File * option error :=
  if String.eqb src header_src then
    (Some match mode with
          | parser.ImportsOnly =>
              {| ast.Package := 15; ast.File_Name := ident 23 "p"; ast.Decls := [] |}
          | parser.ParseComments => header_file
          end, None)
  else if String.eqb src cr_src then (Some cr_file, None)
  else sample_parse filename src mode.

Definition edgeLib : GoLib :=
  {| ParseOverlayArchive := @ParseOverlayArchive sampleLib;
     ParseFile filename src mode :=
       match src with
       | Some bytes => edge_parse filename bytes mode
       | None =>
           match edge_disk !! filename with
           | Some bytes => edge_parse filename bytes mode
           | None => @ParseFile sampleLib filename None mode
           end
       end;
     format_Node := @format_Node sampleLib |}.

(** Unfolds one step of a run. *)
Ltac run_step :=
  unfold mbind, Run_bind, mret, Run_ret, panic, reportError, Fprintln_Stderr; simpl.

(** * Theorems *)

(** ** The output streams *)

Lemma logged_nil w : logged [] w = w.
Proof. destruct w; unfold logged; simpl. by rewrite app_nil_r. Qed.

Lemma logged_app a b w : logged b (logged a w) = logged (a ++ b) w.
Proof. unfold logged; simpl. by rewrite app_assoc. Qed.

Lemma Stdout_logged lines w : Stdout (logged lines w) = Stdout w.
Proof. reflexivity. Qed.

Lemma forRange_cons {A B} (x : B) (rest : list B) (body : A -> B -> Run A) a w :
  forRange (x :: rest) body a w =
  match body a x w with
  | (Done a', w') => forRange rest body a' w'
  | (Panic msg, w') => (Panic msg, w')
  end.
Proof. reflexivity. Qed.

(** ** The walk and the outline *)
Section Walk.
Context `{GoLib}.

Lemma valueKind_eqb tok :
  (if token.Token_eqb tok token.CONST then "constant" else "variable") = valueKind tok.
Proof. by destruct tok. Qed.

(** The loop of lines 101-114 appends one node per name, left to right. *)
Lemma forRange_names decl names l w :
  forRange names (fun declarations id =>
    let varOrConst :=
      if token.Token_eqb (ast.Tok decl) token.CONST then "constant" else "variable" in
    mret (append declarations
            {| Label := ast.Name id;
               Type_ := varOrConst;
               ReceiverType := "";
               Start := ast.Ident_Pos id;
               End := ast.Ident_End id;
               Children := Some [] |})) (Some l) w
  = (Done (Some (l ++ map (valueNode (ast.Tok decl)) names)), w).
Proof.
  revert l. induction names as [|id names IH]; intros l.
  - simpl. by rewrite app_nil_r.
  - rewrite forRange_cons. run_step. unfold append; simpl.
    rewrite IH, <- app_assoc. simpl.
    unfold valueNode. by rewrite valueKind_eqb.
Qed.

Lemma main_spec_nodes decl l spec w :
  main_spec decl (Some l) spec w = (Done (Some (l ++ nodesOfSpec (ast.Tok decl) spec)), w).
Proof.
  destruct spec as [s|s|s]; simpl.
  - reflexivity.
  - apply forRange_names.
  - reflexivity.
Qed.

Lemma forRange_specs decl specs l w :
  forRange specs (main_spec decl) (Some l) w
  = (Done (Some (l ++ flat_map (nodesOfSpec (ast.Tok decl)) specs)), w).
Proof.
  revert l. induction specs as [|spec specs IH]; intros l.
  - simpl. by rewrite app_nil_r.
  - rewrite forRange_cons, main_spec_nodes, IH. simpl. by rewrite <- app_assoc.
Qed.

(** One declaration: its nodes are appended and its errors logged, and the
    walk goes on. *)
Lemma main_decl_nodes decl l w :
  receiverOK decl ->
  main_decl (Some l) decl w
  = (Done (Some (l ++ nodesOfDecl decl)), logged (errorsOfDecl decl) w).
Proof.
  intros OK. destruct decl as [from to|g|d].
  - run_step. by rewrite app_nil_r.
  - simpl. by rewrite forRange_specs, logged_nil.
  - destruct d as [[[opening [|field rest] closing]|] name pos end_]; simpl in *.
    + done.
    + unfold funcNode, renderReceiver, getReceiverType. run_step.
      destruct (format_Node (ast.Field_Type field)) as [text [err|]]; run_step.
      * reflexivity.
      * by rewrite logged_nil.
    + run_step. by rewrite logged_nil.
Qed.

Lemma main_decl_panics decl l w :
  ¬ receiverOK decl ->
  main_decl l decl w = (Panic "runtime error: index out of range [0] with length 0", w).
Proof.
  intros Bad. destruct decl as [from to|g|d]; simpl in Bad; try (by exfalso; apply Bad).
  destruct d as [[[opening [|field rest] closing]|] name pos end_];
    simpl in Bad; try (by exfalso; apply Bad).
  reflexivity.
Qed.

Lemma forRange_decls decls l w :
  Forall receiverOK decls ->
  forRange decls main_decl (Some l) w
  = (Done (Some (l ++ flat_map nodesOfDecl decls)), logged (flat_map errorsOfDecl decls) w).
Proof.
  intros OK. revert l w. induction OK as [|decl decls OK1 OK IH]; intros l w.
  - simpl. by rewrite app_nil_r, logged_nil.
  - rewrite forRange_cons, main_decl_nodes by done.
    rewrite IH, logged_app. simpl. by rewrite <- app_assoc.
Qed.

(** A receiver clause that lists nothing ends the walk in a panic; what
    was logged until then stays, and standard output is as it was. *)
Lemma forRange_decls_panics decls l w :
  ¬ Forall receiverOK decls ->
  exists lines, forRange decls main_decl (Some l) w
    = (Panic "runtime error: index out of range [0] with length 0", logged lines w).
Proof.
  revert l w. induction decls as [|decl decls IH]; intros l w Bad.
  - destruct Bad. constructor.
  - rewrite forRange_cons.
    destruct (decide (receiverOK decl)) as [OK1|Bad1].
    + rewrite main_decl_nodes by done.
      destruct (IH (l ++ nodesOfDecl decl) (logged (errorsOfDecl decl) w)) as [lines Hl].
      { intros OK. apply Bad. by constructor. }
      rewrite Hl, logged_app. by eexists.
    + rewrite main_decl_panics by done. exists []. by rewrite logged_nil.
Qed.

(** Lines 40-59: the tree handed on is the parser's, the lines logged are
    [errorsOfParse], and nothing ends the run before the tree is read. *)
Lemma main_pkg_parsed e w :
  main_pkg e w =
  match fst (parsed e) with
  | None =>
      (Panic "runtime error: invalid memory address or nil pointer dereference",
       logged (errorsOfParse e) w)
  | Some fileAst =>
      match forRange (ast.Decls fileAst) main_decl (Some []) (logged (errorsOfParse e) w) with
      | (Done declarations, w') =>
          (Done [mkDeclaration (ast.Name (ast.File_Name fileAst)) "package" ""
                   (ast.File_Pos fileAst) (ast.File_End fileAst) declarations], w')
      | (Panic msg, w') => (Panic msg, w')
      end
  end.
Proof.
  unfold main_pkg, main_parse, errorsOfParse, parsed, sourceOf.
  destruct (modified e).
  - destruct (ParseOverlayArchive (Stdin e)) as [archive [aerr|]]; simpl;
      destruct (archive !! file e) as [fc|]; simpl;
      destruct (ParseFile _ _ _) as [[fileAst|] perr]; run_step;
      rewrite ?logged_nil; unfold logged; simpl; rewrite <- ?app_assoc; reflexivity.
  - destruct (ParseFile _ _ _) as [[fileAst|] [perr|]]; simpl; run_step;
      rewrite ?logged_nil; reflexivity.
Qed.

End Walk.

(** ** Whole runs *)
Section Runs.
Context `{GoLib}.

(** A tree was parsed and every receiver clause lists a field: [main]
    returns, having printed the root, whatever errors were reported on the
    way. *)
Lemma main_pkg_done e f w :
  fst (parsed e) = Some f ->
  Forall receiverOK (ast.Decls f) ->
  main_pkg e w = (Done [rootNode f], logged (errorsOfParse e ++ errorsOfFile f) w).
Proof.
  intros Hf OK. rewrite main_pkg_parsed, Hf, forRange_decls by done.
  by rewrite logged_app.
Qed.

Lemma main_done e f w :
  fst (parsed e) = Some f ->
  Forall receiverOK (ast.Decls f) ->
  main e w = (Done (), printed (json.Marshal [rootNode f])
                         (logged (errorsOfParse e ++ errorsOfFile f) w)).
Proof.
  intros Hf OK. unfold main. run_step. by rewrite (main_pkg_done e f).
Qed.

(** No tree: [fileAst.Decls] dereferences [nil]. *)
Lemma main_nil e w :
  fst (parsed e) = None ->
  main e w = (Panic "runtime error: invalid memory address or nil pointer dereference",
              logged (errorsOfParse e) w).
Proof.
  intros Hf. unfold main. run_step. by rewrite main_pkg_parsed, Hf.
Qed.

Lemma main_panics e f w :
  fst (parsed e) = Some f ->
  ¬ Forall receiverOK (ast.Decls f) ->
  exists lines,
    main e w = (Panic "runtime error: index out of range [0] with length 0", logged lines w).
Proof.
  intros Hf Bad. unfold main. run_step. rewrite main_pkg_parsed, Hf.
  destruct (forRange_decls_panics (ast.Decls f) [] (logged (errorsOfParse e) w) Bad)
    as [lines Hl].
  rewrite Hl, logged_app. by eexists.
Qed.

(** [getReceiverType] returns exactly when the receiver clause, if any,
    lists a field. *)
Lemma getReceiverType_returns decl w :
  receiverOK (ast.FuncDeclD decl) ->
  exists text err, getReceiverType decl w = (Done (text, err), w).
Proof.
  destruct decl as [[[opening [|field rest] closing]|] name pos end_]; simpl; intros OK.
  - done.
  - unfold getReceiverType; simpl.
    destruct (format_Node (ast.Field_Type field)) as [text [err|]]; by eexists _, _.
  - by eexists _, _.
Qed.

Lemma nodesOfFile_split f pre d post :
  ast.Decls f = pre ++ d :: post ->
  nodesOfFile f = flat_map nodesOfDecl pre ++ nodesOfDecl d ++ flat_map nodesOfDecl post.
Proof. intros E. unfold nodesOfFile. by rewrite E, flat_map_app. Qed.

Lemma nodesOfSpecs_split tok specs pre s post :
  specs = pre ++ s :: post ->
  flat_map (nodesOfSpec tok) specs
  = flat_map (nodesOfSpec tok) pre ++ nodesOfSpec tok s ++ flat_map (nodesOfSpec tok) post.
Proof. intros ->. by rewrite flat_map_app. Qed.

(** Every node under the root is a leaf of one of the five kinds. *)
Lemma nodesOfSpec_leaf tok spec c :
  In c (nodesOfSpec tok spec) ->
  Children c = Some [] /\
  In (Type_ c) ["import"; "type"; "variable"; "constant"].
Proof.
  destruct spec as [s|s|s]; simpl.
  - intros [<-|[]]. simpl. auto.
  - rewrite in_map_iff. intros (id & <- & _). split; [done|].
    destruct tok; simpl; auto.
  - intros [<-|[]]. simpl. auto.
Qed.

Lemma nodesOfDecl_leaf decl c :
  In c (nodesOfDecl decl) ->
  Children c = Some [] /\
  In (Type_ c) ["function"; "import"; "type"; "variable"; "constant"].
Proof.
  destruct decl as [from to|g|d]; simpl.
  - done.
  - rewrite in_flat_map. intros (spec & _ & Hc).
    destruct (nodesOfSpec_leaf _ _ _ Hc) as [? ?]. split; [done|]. by right.
  - intros [<-|[]]. simpl. auto.
Qed.

Lemma nodesOfFile_leaf f c :
  In c (nodesOfFile f) ->
  Children c = Some [] /\
  In (Type_ c) ["function"; "import"; "type"; "variable"; "constant"].
Proof.
  unfold nodesOfFile. rewrite in_flat_map. intros (decl & _ & Hc).
  by apply nodesOfDecl_leaf in Hc.
Qed.

(** The count of section 8, spec by spec and declaration by declaration. *)
Lemma length_nodesOfSpecs tok specs :
  length (flat_map (nodesOfSpec tok) specs)
  = (length (List.filter isImportSpec specs) + length (List.filter isTypeSpec specs)
     + sum_list_with valueIdents specs)%nat.
Proof.
  induction specs as [|spec specs IH]; [done|].
  simpl. rewrite length_app, IH.
  destruct spec as [s|s|s]; simpl; rewrite ?length_map; lia.
Qed.

Lemma length_nodesOfDecls decls :
  length (flat_map nodesOfDecl decls)
  = (length (List.filter isFuncDecl decls)
     + length (List.filter isImportSpec (flat_map specsOfDecl decls))
     + length (List.filter isTypeSpec (flat_map specsOfDecl decls))
     + sum_list_with valueIdents (flat_map specsOfDecl decls))%nat.
Proof.
  induction decls as [|decl decls IH]; [done|].
  simpl. rewrite length_app, IH.
  destruct decl as [from to|g|d]; simpl.
  - lia.
  - rewrite !List.filter_app, !length_app, sum_list_with_app, length_nodesOfSpecs. lia.
  - lia.
Qed.

End Runs.

(** ** The claims *)

(** C4, as amended.  For a syntactically valid file (the parser answers
    with a tree and no error) on which the run succeeds, [main] builds and
    prints exactly one root node.  Its kind is [package] and its label is the
    package name of the file.  Its span is that of the file node:
    it starts at the [package] keyword and ends where the last top-level
    declaration ends, or where the package name ends when the file declares
    nothing. *)
Theorem C4_one_package_root `{GoLib} (e : Env) (f : ast.File) (w : World) :
  parsed e = (Some f, None) ->
  Forall receiverOK (ast.Decls f) ->
  exists root w',
    main_pkg e w = (Done [root], w') /\
    main e w = (Done (), printed (json.Array [json.marshalDeclaration root]) w') /\
    Type_ root = "package" /\
    Label root = ast.Name (ast.File_Name f) /\
    Start root = ast.Package f /\
    End root = match last (ast.Decls f) with
               | Some (ast.BadDeclD _ to) => to
               | Some (ast.GenDeclD g) => ast.GenDecl_End g
               | Some (ast.FuncDeclD d) => ast.FuncDecl_End d
               | None =>
                   ast.NamePos (ast.File_Name f)
                   + Z.of_nat (String.length (ast.Name (ast.File_Name f)))
               end.
Proof.
  intros Hp OK. assert (Hf : fst (parsed e) = Some f) by (by rewrite Hp).
  exists (rootNode f), (logged (errorsOfParse e ++ errorsOfFile f) w).
  split; [by apply main_pkg_done|].
  split; [by apply main_done|].
  by repeat split.
Qed.

Lemma C4_one_package_root_witness :
  exists root w',
    main_pkg (sample_env "sample.go") noOutput = (Done [root], w') /\
    main (sample_env "sample.go") noOutput
      = (Done (), printed (json.Array [json.marshalDeclaration root]) w') /\
    Type_ root = "package" /\
    Label root = ast.Name (ast.File_Name sample_file) /\
    Start root = ast.Package sample_file /\
    End root = match last (ast.Decls sample_file) with
               | Some (ast.BadDeclD _ to) => to
               | Some (ast.GenDeclD g) => ast.GenDecl_End g
               | Some (ast.FuncDeclD d) => ast.FuncDecl_End d
               | None =>
                   ast.NamePos (ast.File_Name sample_file)
                   + Z.of_nat (String.length (ast.Name (ast.File_Name sample_file)))
               end.
Proof.
  apply (C4_one_package_root (sample_env "sample.go") sample_file noOutput).
  - vm_compute. reflexivity.
  - repeat constructor.
Defined.

(** C4, as first stated, fails on header.go.  The file is valid and the run
    succeeds; the source is 57 bytes, positions 1 to 57, and the root runs
    from 15 to 35: the comment before the package clause and everything
    after the variable are outside the span, so it does not cover the file. *)
Lemma C4_span_does_not_cover_the_file :
  edge_disk !! "header.go" = Some header_src /\
  String.length header_src = 57%nat /\
  @parsed edgeLib (sample_env "header.go") = (Some header_file, None) /\
  exists root w',
    @main_pkg edgeLib (sample_env "header.go") noOutput = (Done [root], w') /\
    Type_ root = "package" /\
    Start root = 15 /\
    End root = 35 /\
    ~ spanCovers header_src (Start root) (End root).
Proof.
  split; [by vm_compute|]. split; [reflexivity|]. split; [by vm_compute|].
  eexists _, _. split; [vm_compute; reflexivity|].
  repeat split. unfold spanCovers. simpl. intros [Hstart Hend]. lia.
Qed.

(** C5.  The root has as many children as the file has top-level function
    and method declarations, import specs, type specs, and identifiers in
    value specs, taken together. *)
Theorem C5_children_count `{GoLib} (e : Env) (f : ast.File) (w : World) :
  fst (parsed e) = Some f ->
  Forall receiverOK (ast.Decls f) ->
  exists root w',
    main_pkg e w = (Done [root], w') /\
    len (Children root)
    = (countFuncs f + countImportSpecs f + countTypeSpecs f + countValueIdents f)%nat.
Proof.
  intros Hf OK.
  exists (rootNode f), (logged (errorsOfParse e ++ errorsOfFile f) w).
  split; [by apply main_pkg_done|].
  unfold len, rootNode, nodesOfFile; simpl. apply length_nodesOfDecls.
Qed.

Lemma C5_children_count_witness :
  exists root w',
    main_pkg (sample_env "sample.go") noOutput = (Done [root], w') /\
    len (Children root)
    = (countFuncs sample_file + countImportSpecs sample_file
       + countTypeSpecs sample_file + countValueIdents sample_file)%nat.
Proof.
  apply (C5_children_count (sample_env "sample.go") sample_file noOutput).
  - vm_compute. reflexivity.
  - repeat constructor.
Defined.

Example sample_counts :
  (countFuncs sample_file, countImportSpecs sample_file,
   countTypeSpecs sample_file, countValueIdents sample_file) = (2, 1, 1, 3)%nat.
Proof. reflexivity. Qed.

(** C6.  A top-level value spec gives one node per identifier it declares,
    in the order they are written; the nodes stand after those of everything
    declared before the spec and before those of everything declared after
    it.  Their kind is [constant] when the declaration is introduced by
    [const], and [variable] otherwise. *)
Theorem C6_value_spec_nodes `{GoLib} (e : Env) (f : ast.File) (w : World)
    (pre post : list ast.Decl) (g : ast.GenDecl)
    (spre spost : list ast.Spec) (vs : ast.ValueSpec) :
  fst (parsed e) = Some f ->
  Forall receiverOK (ast.Decls f) ->
  ast.Decls f = pre ++ ast.GenDeclD g :: post ->
  ast.Specs g = spre ++ ast.ValueSpecS vs :: spost ->
  exists root w',
    main_pkg e w = (Done [root], w') /\
    Children root
    = Some ((flat_map nodesOfDecl pre ++ flat_map (nodesOfSpec (ast.Tok g)) spre)
            ++ map (fun id =>
                      {| Label := ast.Name id;
                         Type_ := match ast.Tok g with
                                  | token.CONST => "constant"
                                  | _ => "variable"
                                  end;
                         ReceiverType := "";
                         Start := ast.Ident_Pos id;
                         End := ast.Ident_End id;
                         Children := Some [] |}) (ast.ValueSpec_Names vs)
            ++ (flat_map (nodesOfSpec (ast.Tok g)) spost ++ flat_map nodesOfDecl post)).
Proof.
  intros Hf OK Hd Hs.
  exists (rootNode f), (logged (errorsOfParse e ++ errorsOfFile f) w).
  split; [by apply main_pkg_done|].
  unfold rootNode; simpl. f_equal.
  rewrite (nodesOfFile_split f pre (ast.GenDeclD g) post Hd). simpl.
  rewrite (nodesOfSpecs_split (ast.Tok g) (ast.Specs g) spre (ast.ValueSpecS vs) spost Hs).
  simpl. by rewrite <- !app_assoc.
Qed.

Lemma C6_value_spec_nodes_witness :
  exists root w',
    main_pkg (sample_env "sample.go") noOutput = (Done [root], w') /\
    Children root
    = Some ((flat_map nodesOfDecl [ast.GenDeclD sample_import_decl; ast.GenDeclD sample_type_decl]
             ++ flat_map (nodesOfSpec (ast.Tok sample_const_decl)) [])
            ++ map (fun id =>
                      {| Label := ast.Name id;
                         Type_ := match ast.Tok sample_const_decl with
                                  | token.CONST => "constant"
                                  | _ => "variable"
                                  end;
                         ReceiverType := "";
                         Start := ast.Ident_Pos id;
                         End := ast.Ident_End id;
                         Children := Some [] |}) (ast.ValueSpec_Names sample_consts)
            ++ (flat_map (nodesOfSpec (ast.Tok sample_const_decl)) []
                ++ flat_map nodesOfDecl [ast.GenDeclD sample_var_decl;
                                         ast.FuncDeclD sample_method;
                                         ast.FuncDeclD sample_func])).
Proof.
  apply (C6_value_spec_nodes (sample_env "sample.go") sample_file noOutput
           [ast.GenDeclD sample_import_decl; ast.GenDeclD sample_type_decl]
           [ast.GenDeclD sample_var_decl; ast.FuncDeclD sample_method; ast.FuncDeclD sample_func]
           sample_const_decl [] [] sample_consts).
  - vm_compute. reflexivity.
  - repeat constructor.
  - reflexivity.
  - reflexivity.
Defined.

(** C7.  A top-level function or method declaration gives a [function]
    node.  For a method, its [receiverType] is what the formatter writes for
    the type expression of the first receiver field, and nothing else of the
    receiver clause (the names of the field play no part); it is printed
    under the key [receiverType].  For a plain function the [receiverType] is
    empty and the key is left out of the output. *)
Theorem C7_receiver_type `{GoLib} (e : Env) (f : ast.File) (w : World)
    (pre post : list ast.Decl) (d : ast.FuncDecl) :
  fst (parsed e) = Some f ->
  Forall receiverOK (ast.Decls f) ->
  ast.Decls f = pre ++ ast.FuncDeclD d :: post ->
  exists root w' node,
    main_pkg e w = (Done [root], w') /\
    Children root = Some (flat_map nodesOfDecl pre ++ node :: flat_map nodesOfDecl post) /\
    Type_ node = "function" /\
    Label node = ast.Name (ast.FuncDecl_Name d) /\
    match ast.Recv d with
    | None =>
        ReceiverType node = "" /\
        json.get "receiverType" (json.marshalDeclaration node) = None
    | Some recv =>
        forall field text,
          ast.List recv !! 0%nat = Some field ->
          format_Node (ast.Field_Type field) = (text, None) ->
          ReceiverType node = text /\
          (text <> "" ->
           json.get "receiverType" (json.marshalDeclaration node) = Some (json.Str text))
    end.
Proof.
  intros Hf OK Hd.
  exists (rootNode f), (logged (errorsOfParse e ++ errorsOfFile f) w), (funcNode d).
  split; [by apply main_pkg_done|].
  split.
  { unfold rootNode; simpl. f_equal. by rewrite (nodesOfFile_split f pre _ post Hd). }
  split; [done|]. split; [done|].
  destruct d as [[[opening fields closing]|] name pos end_]; simpl.
  - intros field text Hfield Htext.
    destruct fields as [|field' rest]; [done|]. simpl in Hfield.
    injection Hfield as ->.
    unfold funcNode, renderReceiver; simpl. rewrite Htext. split; [done|].
    intros Hne. destruct text as [|c text]; [done|]. reflexivity.
  - split; reflexivity.
Qed.

Lemma C7_receiver_type_witness :
  exists root w' node,
    main_pkg (sample_env "sample.go") noOutput = (Done [root], w') /\
    Children root
    = Some (flat_map nodesOfDecl
              [ast.GenDeclD sample_import_decl; ast.GenDeclD sample_type_decl;
               ast.GenDeclD sample_const_decl; ast.GenDeclD sample_var_decl]
            ++ node :: flat_map nodesOfDecl [ast.FuncDeclD sample_func]) /\
    Type_ node = "function" /\
    Label node = ast.Name (ast.FuncDecl_Name sample_method) /\
    match ast.Recv sample_method with
    | None =>
        ReceiverType node = "" /\
        json.get "receiverType" (json.marshalDeclaration node) = None
    | Some recv =>
        forall field text,
          ast.List recv !! 0%nat = Some field ->
          format_Node (ast.Field_Type field) = (text, None) ->
          ReceiverType node = text /\
          (text <> "" ->
           json.get "receiverType" (json.marshalDeclaration node) = Some (json.Str text))
    end.
Proof.
  apply (C7_receiver_type (sample_env "sample.go") sample_file noOutput
           [ast.GenDeclD sample_import_decl; ast.GenDeclD sample_type_decl;
            ast.GenDeclD sample_const_decl; ast.GenDeclD sample_var_decl]
           [ast.FuncDeclD sample_func] sample_method).
  - vm_compute. reflexivity.
  - repeat constructor.
  - reflexivity.
Defined.

(** [func (r *Foo) Bar()] and [func Baz()] of sample.go, as the run prints
    them. *)
Example sample_receivers :
  exists root w',
    main_pkg (sample_env "sample.go") noOutput = (Done [root], w') /\
    (ReceiverType <$> elems (Children root) !! 5%nat) = Some "*Foo" /\
    (json.get "receiverType" ∘ json.marshalDeclaration <$> elems (Children root) !! 5%nat)
    = Some (Some (json.Str "*Foo")) /\
    (ReceiverType <$> elems (Children root) !! 6%nat) = Some "" /\
    (json.get "receiverType" ∘ json.marshalDeclaration <$> elems (Children root) !! 6%nat)
    = Some None.
Proof. eexists _, _. split; [vm_compute; reflexivity|]. vm_compute. auto. Qed.

(** A generic pointer receiver, [func (s *Stack[T]) Push()]: star and type
    arguments are in the text, the name [s] is not. *)
Example generic_receiver :
  getReceiverType generic_method noOutput = (Done ("*Stack[T]", None), noOutput) /\
  renderReceiver generic_method = "*Stack[T]".
Proof. by vm_compute. Qed.

(** C8, as amended.  An import spec gives an [import] node whose label is
    the path literal of the spec as the parser holds it ([spec.Path.Value]),
    quotes included: the program copies it and neither unquotes nor changes
    it.  An [import] node comes from nothing else. *)
Theorem C8_import_label `{GoLib} (e : Env) (f : ast.File) (w : World)
    (pre post : list ast.Decl) (g : ast.GenDecl)
    (spre spost : list ast.Spec) (s : ast.ImportSpec) :
  fst (parsed e) = Some f ->
  Forall receiverOK (ast.Decls f) ->
  ast.Decls f = pre ++ ast.GenDeclD g :: post ->
  ast.Specs g = spre ++ ast.ImportSpecS s :: spost ->
  exists root w' node,
    main_pkg e w = (Done [root], w') /\
    Children root
    = Some ((flat_map nodesOfDecl pre ++ flat_map (nodesOfSpec (ast.Tok g)) spre)
            ++ node
            :: (flat_map (nodesOfSpec (ast.Tok g)) spost ++ flat_map nodesOfDecl post)) /\
    Type_ node = "import" /\
    Label node = ast.Value (ast.Path s) /\
    ReceiverType node = "" /\
    forall c, In c (elems (Children root)) -> Type_ c = "import" ->
      exists g' s', In (ast.GenDeclD g') (ast.Decls f) /\
                    In (ast.ImportSpecS s') (ast.Specs g') /\
                    Label c = ast.Value (ast.Path s').
Proof.
  intros Hf OK Hd Hs.
  exists (rootNode f), (logged (errorsOfParse e ++ errorsOfFile f) w), (importNode s).
  split; [by apply main_pkg_done|].
  split.
  { unfold rootNode; simpl. f_equal.
    rewrite (nodesOfFile_split f pre _ post Hd). simpl.
    rewrite (nodesOfSpecs_split (ast.Tok g) (ast.Specs g) spre _ spost Hs).
    simpl. by rewrite <- !app_assoc. }
  split; [done|]. split; [done|]. split; [done|].
  intros c Hc Hkind. unfold rootNode, nodesOfFile in Hc; simpl in Hc.
  apply in_flat_map in Hc as (decl & Hdecl & Hc).
  destruct decl as [from to|g'|d']; simpl in Hc.
  - done.
  - apply in_flat_map in Hc as (spec & Hspec & Hc).
    destruct spec as [s'|v|t]; simpl in Hc.
    + destruct Hc as [<-|[]]. by exists g', s'.
    + apply in_map_iff in Hc as (id & <- & _).
      simpl in Hkind. by destruct (ast.Tok g').
    + by destruct Hc as [<-|[]].
  - by destruct Hc as [<-|[]].
Qed.

Lemma C8_import_label_witness :
  exists root w' node,
    main_pkg (sample_env "sample.go") noOutput = (Done [root], w') /\
    Children root
    = Some ((flat_map nodesOfDecl [] ++ flat_map (nodesOfSpec (ast.Tok sample_import_decl)) [])
            ++ node
            :: (flat_map (nodesOfSpec (ast.Tok sample_import_decl)) []
                ++ flat_map nodesOfDecl
                     [ast.GenDeclD sample_type_decl; ast.GenDeclD sample_const_decl;
                      ast.GenDeclD sample_var_decl; ast.FuncDeclD sample_method;
                      ast.FuncDeclD sample_func])) /\
    Type_ node = "import" /\
    Label node = ast.Value (ast.Path sample_import) /\
    ReceiverType node = "" /\
    forall c, In c (elems (Children root)) -> Type_ c = "import" ->
      exists g' s', In (ast.GenDeclD g') (ast.Decls sample_file) /\
                    In (ast.ImportSpecS s') (ast.Specs g') /\
                    Label c = ast.Value (ast.Path s').
Proof.
  apply (C8_import_label (sample_env "sample.go") sample_file noOutput
           []
           [ast.GenDeclD sample_type_decl; ast.GenDeclD sample_const_decl;
            ast.GenDeclD sample_var_decl; ast.FuncDeclD sample_method;
            ast.FuncDeclD sample_func]
           sample_import_decl [] [] sample_import).
  - vm_compute. reflexivity.
  - repeat constructor.
  - reflexivity.
  - reflexivity.
Defined.

(** C8, as first stated, fails on cr.go.  The file is valid and the run
    succeeds.  The import path is written as the six bytes at positions 19
    to 24, a raw string with a carriage return in it; the label of the node
    is the five bytes the parser holds, without the carriage return: it is
    not the literal exactly as written. *)
Lemma C8_label_differs_from_the_source_text :
  edge_disk !! "cr.go" = Some cr_src /\
  @parsed edgeLib (sample_env "cr.go") = (Some cr_file, None) /\
  writtenAt cr_src 19 6 = "`fmt" +:+ cr +:+ "`" /\
  exists root w' node,
    @main_pkg edgeLib (sample_env "cr.go") noOutput = (Done [root], w') /\
    Children root = Some [node] /\
    Type_ node = "import" /\
    Start node = 19 /\
    Label node = "`fmt`" /\
    Label node <> writtenAt cr_src (Start node) 6.
Proof.
  split; [by vm_compute|]. split; [by vm_compute|]. split; [by vm_compute|].
  eexists _, _, _. split; [vm_compute; reflexivity|].
  split; [reflexivity|]. repeat split. vm_compute. discriminate.
Qed.

(** The label of the import of sample.go keeps its two quote characters:
    five characters for the three of [fmt]. *)
Example sample_import_label :
  ast.Value (ast.Path sample_import) = quoted "fmt" /\
  String.length (ast.Value (ast.Path sample_import)) = 5%nat /\
  String.get 0 (ast.Value (ast.Path sample_import)) = Some (Ascii.ascii_of_nat 34).
Proof. by vm_compute. Qed.

(** The key [children] is in the encoding of a node exactly when the node
    has a child. *)
Lemma children_omitted_iff (d : Declaration) :
  len (Children d) = 0%nat <-> json.get "children" (json.marshalDeclaration d) = None.
Proof.
  destruct d as [label type receiverType start end_ [[|c cs]|]];
    destruct receiverType; simpl; split; intros E; try done.
Qed.

(** C9.  Every node under the root (a [function], [import], [type],
    [variable] or [constant] node) holds an empty, non-nil sequence of
    children, so that only the root, the [package] node, can hold a
    non-empty one; and the encoding of a node leaves the key [children] out
    exactly when the sequence is empty. *)
Theorem C9_leaves_and_omitted_children `{GoLib} (e : Env) (f : ast.File) (w : World) :
  fst (parsed e) = Some f ->
  Forall receiverOK (ast.Decls f) ->
  exists root w',
    main_pkg e w = (Done [root], w') /\
    Type_ root = "package" /\
    (forall c, In c (elems (Children root)) ->
       Children c = Some [] /\
       In (Type_ c) ["function"; "import"; "type"; "variable"; "constant"] /\
       json.get "children" (json.marshalDeclaration c) = None) /\
    (forall d : Declaration,
       len (Children d) = 0%nat <-> json.get "children" (json.marshalDeclaration d) = None).
Proof.
  intros Hf OK.
  exists (rootNode f), (logged (errorsOfParse e ++ errorsOfFile f) w).
  split; [by apply main_pkg_done|]. split; [done|]. split.
  - intros c Hc. simpl in Hc.
    destruct (nodesOfFile_leaf f c Hc) as [Hleaf Hkind].
    repeat split; [done..|].
    apply children_omitted_iff. unfold len. by rewrite Hleaf.
  - apply children_omitted_iff.
Qed.

Lemma C9_leaves_and_omitted_children_witness :
  exists root w',
    main_pkg (sample_env "sample.go") noOutput = (Done [root], w') /\
    Type_ root = "package" /\
    (forall c, In c (elems (Children root)) ->
       Children c = Some [] /\
       In (Type_ c) ["function"; "import"; "type"; "variable"; "constant"] /\
       json.get "children" (json.marshalDeclaration c) = None) /\
    (forall d : Declaration,
       len (Children d) = 0%nat <-> json.get "children" (json.marshalDeclaration d) = None).
Proof.
  apply (C9_leaves_and_omitted_children (sample_env "sample.go") sample_file noOutput).
  - vm_compute. reflexivity.
  - repeat constructor.
Defined.

(** The root of sample.go does hold children, and its encoding has the key. *)
Example sample_root_children :
  len (Children (rootNode sample_file)) = 7%nat /\
  exists l, json.get "children" (json.marshalDeclaration (rootNode sample_file))
            = Some (json.Array l) /\ length l = 7%nat.
Proof. split; [reflexivity|]. eexists. split; [vm_compute; reflexivity|reflexivity]. Qed.

(** ** Errors and the end of the run

    [reportError] prints its line and returns.  Nothing between a report and
    the end of [main] looks at whether one was made, so a run ends early only
    by a panic. *)

(** Whatever was reported, a run that parsed a tree and met no empty
    receiver clause prints the outline and exits with status 0. *)
Lemma reported_errors_do_not_end_the_run `{GoLib} (e : Env) (f : ast.File) (w : World) :
  fst (parsed e) = Some f ->
  Forall receiverOK (ast.Decls f) ->
  exists w',
    main e w = (Done (), w') /\
    Stdout w' = Stdout w ++ [json.Marshal [rootNode f]] /\
    Stderr w' = Stderr w ++ errorsOfParse e ++ errorsOfFile f /\
    exitStatus (fst (main e w)) = 0.
Proof.
  intros Hf OK. rewrite (main_done e f w Hf OK). by eexists.
Qed.

(** Default mode: a parse error is the first line reported (line 58). *)
Lemma default_parse_failure_reported `{GoLib} (e : Env) (err : error) :
  modified e = false ->
  snd (parsed e) = Some err ->
  errorsOfParse e = ["error: could not parse file " +:+ file e].
Proof. intros Hm Herr. unfold errorsOfParse. by rewrite Hm, Herr. Qed.

(** Overlay mode: the parser's error never reaches line 57; with a sound
    archive that holds the file, nothing is reported before the walk. *)
Lemma overlay_parse_failure_unreported `{GoLib} (e : Env) (archive : gmap string string)
    (fc : string) :
  modified e = true ->
  ParseOverlayArchive (Stdin e) = (archive, None) ->
  archive !! file e = Some fc ->
  errorsOfParse e = [] /\ sourceOf e = Some fc.
Proof.
  intros Hm Ha Hfc. unfold errorsOfParse, sourceOf. rewrite Hm, Ha; simpl.
  rewrite Hfc; simpl. by split.
Qed.

(** Overlay mode, path not in the archive: the miss is reported and the
    parser is handed an empty byte slice, not the disk. *)
Lemma overlay_miss_reported `{GoLib} (e : Env) (archive : gmap string string) :
  modified e = true ->
  ParseOverlayArchive (Stdin e) = (archive, None) ->
  archive !! file e = None ->
  errorsOfParse e = ["error: couldn't find " +:+ file e +:+ " in archive"] /\
  sourceOf e = Some "".
Proof.
  intros Hm Ha Hfc. unfold errorsOfParse, sourceOf. rewrite Hm, Ha; simpl.
  rewrite Hfc; simpl. by split.
Qed.

(** C1, on the code.  empty.go does not parse; the run reports it, then
    prints an outline and exits with status 0.  With a formatter that fails,
    the run on sample.go reports the receiver it could not render, then
    prints the outline all the same. *)
Theorem C1_run_goes_on_after_an_error :
  run (sample_env "empty.go")
  = (Done (), {| Stdout := [empty_outline];
                 Stderr := ["error: could not parse file empty.go"] |}) /\
  exitStatus (fst (run (sample_env "empty.go"))) = 0 /\
  fst (@run failingFormat (sample_env "sample.go")) = Done () /\
  Stderr (snd (@run failingFormat (sample_env "sample.go")))
  = ["error: failed to parse receiver type: format: unsupported node type"] /\
  length (Stdout (snd (@run failingFormat (sample_env "sample.go")))) = 1%nat.
Proof. vm_compute. auto. Qed.

(** C2, on the code.  Overlay mode, an archive with no entry, [-f a.go]: the
    miss is reported and the disk is not read, but the run goes on to parse
    the empty source and prints its outline. *)
Theorem C2_overlay_miss_prints_an_outline :
  sourceOf (overlay_env "a.go" "") = Some "" /\
  run (overlay_env "a.go" "")
  = (Done (), {| Stdout := [empty_outline];
                 Stderr := ["error: couldn't find a.go in archive"] |}).
Proof. vm_compute. auto. Qed.

(** C3, on the code.  Overlay mode, an archive whose entry [a.go] is empty:
    the parser answers with an error, nothing is reported, and an outline is
    printed. *)
Theorem C3_overlay_parse_failure_not_reported :
  snd (parsed (overlay_env "a.go" empty_a_go))
  = Some "a.go:1:1: expected 'package', found 'EOF'" /\
  run (overlay_env "a.go" empty_a_go)
  = (Done (), {| Stdout := [empty_outline]; Stderr := [] |}).
Proof. vm_compute. auto. Qed.

(** C10, on the code.  norecv.go parses without error; its method has a
    receiver clause that lists no field, [getReceiverType] indexes it, and
    the run ends in a panic with nothing printed. *)
Theorem C10_receiver_clause_without_field :
  parsed (sample_env "norecv.go") = (Some norecv_file, None) /\
  getReceiverType norecv_method noOutput
  = (Panic "runtime error: index out of range [0] with length 0", noOutput) /\
  run (sample_env "norecv.go")
  = (Panic "runtime error: index out of range [0] with length 0", noOutput) /\
  exitStatus (fst (run (sample_env "norecv.go"))) = 2.
Proof. vm_compute. auto. Qed.

(** ** More on whole runs *)


Lemma isReport_decl `{GoLib} (decl : ast.Decl) : Forall isReport (errorsOfDecl decl).
Proof.
  destruct decl as [from to|g|[[[opening [|field rest] closing]|] name pos end_]]; simpl;
    try (by constructor).
  - repeat constructor. by eexists.
  - destruct (format_Node (ast.Field_Type field)) as [text [err|]]; repeat constructor.
    by eexists.
Qed.

(** What the walk leaves on the streams, whether it ends or panics. *)
Lemma forRange_decls_log `{GoLib} (decls : list ast.Decl) (l : list Declaration) (w : World) :
  exists lines,
    snd (forRange decls main_decl (Some l) w) = logged lines w /\
    Forall isReport lines.
Proof.
  revert l w. induction decls as [|decl decls IH]; intros l w.
  - exists []. split; [by rewrite logged_nil|constructor].
  - rewrite forRange_cons.
    destruct (decide (receiverOK decl)) as [OK1|Bad1].
    + rewrite main_decl_nodes by done.
      destruct (IH (l ++ nodesOfDecl decl) (logged (errorsOfDecl decl) w)) as (lines & Hl & Hlines).
      exists (errorsOfDecl decl ++ lines). rewrite Hl, logged_app. split; [done|].
      apply Forall_app. split; [apply isReport_decl|done].
    + rewrite main_decl_panics by done. exists []. split; [by rewrite logged_nil|constructor].
Qed.

(** X1.  Whatever the command line, the input and the libraries' answers,
    a run that returns has put exactly one value on standard output, an
    array of one object of kind [package]; a run that panics has put
    nothing there. *)
Theorem X1_stdout_one_value_or_none `{GoLib} (e : Env) (w : World) :
  match main e w with
  | (Done _, w') =>
      exists root, Stdout w' = Stdout w ++ [json.Array [json.marshalDeclaration root]] /\
                   Type_ root = "package"
  | (Panic _, w') => Stdout w' = Stdout w
  end.
Proof.
  unfold main. run_step. rewrite main_pkg_parsed.
  destruct (fst (parsed e)) as [f|]; [|done].
  destruct (forRange_decls_log (ast.Decls f) [] (logged (errorsOfParse e) w)) as (lines & Hl & _).
  destruct (forRange _ _ _ _) as [[declarations|msg] w']; simpl in Hl; subst w'.
  - unfold Println; simpl. by eexists.
  - done.
Qed.


(** X3.  A run returns (exit status 0) exactly when the parser handed back
    a tree and no method of it has a receiver clause without a field; in
    every other case it panics (exit status 2). *)
Theorem X3_main_returns_iff `{GoLib} (e : Env) (w : World) :
  (fst (main e w) = Done () <->
   exists f, fst (parsed e) = Some f /\ Forall receiverOK (ast.Decls f)) /\
  (exitStatus (fst (main e w)) = 0 \/ exitStatus (fst (main e w)) = 2).
Proof.
  split.
  - split.
    + intros Hdone. destruct (fst (parsed e)) as [f|] eqn:Hf.
      * exists f. split; [done|].
        destruct (decide (Forall receiverOK (ast.Decls f))) as [OK|Bad]; [done|].
        destruct (main_panics e f w Hf Bad) as [lines Hp]. by rewrite Hp in Hdone.
      * by rewrite (main_nil e w Hf) in Hdone.
    + intros (f & Hf & OK). by rewrite (main_done e f w Hf OK).
  - destruct (fst (main e w)); simpl; auto.
Qed.

(** ** Where the source comes from *)

Lemma forRange_ext {A B} (body1 body2 : A -> B -> Run A) (l : list B) (a : A) (w : World) :
  (forall a x w, body1 a x w = body2 a x w) ->
  forRange l body1 a w = forRange l body2 a w.
Proof.
  intros Hb. revert a w. induction l as [|x l IH]; intros a w; [done|].
  rewrite !forRange_cons, Hb. destruct (body2 a x w) as [[a'|msg] w']; [apply IH|done].
Qed.

(** The body of the walk asks the library for the formatter alone. *)
Lemma main_decl_ext (L1 L2 : GoLib) (l : slice Declaration) (decl : ast.Decl) (w : World) :
  (forall x, @format_Node L1 x = @format_Node L2 x) ->
  @main_decl L1 l decl w = @main_decl L2 l decl w.
Proof.
  intros Hfmt. destruct decl as [from to|g|d]; [done..|].
  unfold main_decl, getReceiverType.
  destruct (ast.Recv d) as [recv|]; [|done].
  destruct (ast.List recv !! 0%nat) as [field|]; [|done].
  by rewrite Hfmt.
Qed.

(** X4.  Without [-modified] the program does not read standard input: the
    run is the same whatever is on it. *)
Theorem X4_default_mode_ignores_stdin `{GoLib} (e : Env) (stdin : string) (w : World) :
  modified e = false ->
  main {| file := file e; importsOnly := importsOnly e; modified := modified e;
          Stdin := stdin |} w
  = main e w.
Proof.
  intros Hm. destruct e as [name imports overlay input]; simpl in *; subst overlay.
  reflexivity.
Qed.

Lemma X4_default_mode_ignores_stdin_witness :
  main {| file := file (sample_env "sample.go");
          importsOnly := importsOnly (sample_env "sample.go");
          modified := modified (sample_env "sample.go");
          Stdin := empty_a_go |} noOutput
  = main (sample_env "sample.go") noOutput.
Proof.
  apply (X4_default_mode_ignores_stdin (sample_env "sample.go") empty_a_go noOutput).
  reflexivity.
Defined.

(** X5.  With [-modified] the program never has the parser read the disk:
    two libraries that read archives and format alike, and whose parsers
    agree on every source handed over as bytes, give the same run, whatever
    their parsers would do with a path alone. *)
Theorem X5_overlay_mode_ignores_disk (L1 L2 : GoLib) (e : Env) (w : World) :
  modified e = true ->
  (forall stdin, @ParseOverlayArchive L1 stdin = @ParseOverlayArchive L2 stdin) ->
  (forall filename bytes mode,
     @ParseFile L1 filename (Some bytes) mode = @ParseFile L2 filename (Some bytes) mode) ->
  (forall x, @format_Node L1 x = @format_Node L2 x) ->
  @main L1 e w = @main L2 e w.
Proof.
  intros Hm Harchive Hparse Hfmt.
  assert (Hp : @parsed L1 e = @parsed L2 e).
  { unfold parsed, sourceOf. by rewrite Hm, Harchive, Hparse. }
  assert (He : @errorsOfParse L1 e = @errorsOfParse L2 e).
  { unfold errorsOfParse. by rewrite Hm, Harchive. }
  unfold main. run_step. rewrite !main_pkg_parsed, Hp, He.
  destruct (fst (@parsed L2 e)) as [f|]; [|done].
  rewrite (forRange_ext (@main_decl L1) (@main_decl L2)); [done|].
  intros a x w0. by apply main_decl_ext.
Qed.

Lemma X5_overlay_mode_ignores_disk_witness :
  @main archiveLib (overlay_env "sample.go" sample_archive) noOutput
  = @main archiveLib_emptyDisk (overlay_env "sample.go" sample_archive) noOutput.
Proof.
  apply (X5_overlay_mode_ignores_disk archiveLib archiveLib_emptyDisk
           (overlay_env "sample.go" sample_archive) noOutput).
  - reflexivity.
  - intros stdin. reflexivity.
  - intros filename bytes mode. reflexivity.
  - intros x. reflexivity.
Defined.

(** The overlay run of sample.go prints the outline of the archive's
    content though the disk holds no such file. *)
Example overlay_run_of_sample :
  @main archiveLib_emptyDisk (overlay_env "sample.go" sample_archive) noOutput
  = (Done (), printed (json.Marshal [@rootNode sampleLib sample_file]) noOutput) /\
  fst (@main emptyDisk (sample_env "sample.go") noOutput)
  = Panic "runtime error: invalid memory address or nil pointer dereference".
Proof. by vm_compute. Qed.

(** ** Kinds, labels and spans of the children *)

Lemma importsOnly_specs (tok : token.Token) (specs : list ast.Spec) :
  forallb isImportSpec specs = true ->
  Label <$> flat_map (nodesOfSpec tok) specs = flat_map importPath specs /\
  Forall (fun c => Type_ c = "import") (flat_map (nodesOfSpec tok) specs).
Proof.
  induction specs as [|spec specs IH]; simpl; [by split; [|constructor]|].
  destruct spec as [s|s|s]; simpl; try done.
  intros Hs. destruct (IH Hs) as [Hl Hk]. split; [by f_equal|by constructor].
Qed.

(** X6.  When every declaration of the tree is a general declaration of
    import specs (what the parser leaves with [-imports-only]), the children
    of the root are [import] nodes only, one per import spec, and their
    labels are the path literals in source order; the walk reports nothing. *)
Theorem X6_imports_only_children `{GoLib} (e : Env) (f : ast.File) (w : World) :
  fst (parsed e) = Some f ->
  forallb importsOnlyDecl (ast.Decls f) = true ->
  exists root,
    main_pkg e w = (Done [root], logged (errorsOfParse e) w) /\
    Label <$> elems (Children root) = importPaths f /\
    Forall (fun c => Type_ c = "import") (elems (Children root)).
Proof.
  intros Hf Himports.
  assert (H3 : Forall receiverOK (ast.Decls f)
               /\ errorsOfFile f = []
               /\ Label <$> nodesOfFile f = importPaths f
               /\ Forall (fun c => Type_ c = "import") (nodesOfFile f)).
  { unfold errorsOfFile, nodesOfFile, importPaths, topLevelSpecs.
    induction (ast.Decls f) as [|decl decls IH]; simpl in *.
    - by repeat split; constructor.
    - apply andb_prop in Himports as [Hd Hds].
      destruct (IH Hds) as (OK & Herr & Hl & Hk).
      destruct decl as [from to|g|d]; simpl in Hd; try done.
      destruct (importsOnly_specs (ast.Tok g) (ast.Specs g) Hd) as [Hl1 Hk1].
      repeat split.
      + by constructor.
      + done.
      + simpl. by rewrite fmap_app, flat_map_app, Hl1, Hl.
      + simpl. by apply Forall_app. }
  destruct H3 as (OK & Herr & Hl & Hk).
  exists (rootNode f). split; [|by split].
  by rewrite (main_pkg_done e f w Hf OK), Herr, app_nil_r.
Qed.

Lemma X6_imports_only_children_witness :
  exists root,
    main_pkg (imports_env "sample.go") noOutput
    = (Done [root], logged (errorsOfParse (imports_env "sample.go")) noOutput) /\
    Label <$> elems (Children root) = importPaths sample_file_imports /\
    Forall (fun c => Type_ c = "import") (elems (Children root)).
Proof.
  apply (X6_imports_only_children (imports_env "sample.go") sample_file_imports noOutput).
  - vm_compute. reflexivity.
  - reflexivity.
Defined.

(** X7.  A [variable] or [constant] node spans exactly its identifier: its
    end is its start plus the length of its label. *)
Theorem X7_value_node_span `{GoLib} (e : Env) (f : ast.File) (w : World) :
  fst (parsed e) = Some f ->
  Forall receiverOK (ast.Decls f) ->
  exists root w',
    main_pkg e w = (Done [root], w') /\
    forall c, In c (elems (Children root)) ->
      Type_ c = "variable" \/ Type_ c = "constant" ->
      End c = Start c + Z.of_nat (String.length (Label c)).
Proof.
  intros Hf OK.
  exists (rootNode f), (logged (errorsOfParse e ++ errorsOfFile f) w).
  split; [by apply main_pkg_done|].
  intros c Hc Hkind. unfold rootNode, nodesOfFile in Hc; simpl in Hc.
  apply in_flat_map in Hc as (decl & Hdecl & Hc).
  destruct decl as [from to|g|d]; simpl in Hc.
  - done.
  - apply in_flat_map in Hc as (spec & Hspec & Hc).
    destruct spec as [s|v|t]; simpl in Hc.
    + destruct Hc as [<-|[]]. by destruct Hkind.
    + by apply in_map_iff in Hc as (id & <- & _).
    + destruct Hc as [<-|[]]. by destruct Hkind.
  - destruct Hc as [<-|[]]. by destruct Hkind.
Qed.

Lemma X7_value_node_span_witness :
  exists root w',
    main_pkg (sample_env "sample.go") noOutput = (Done [root], w') /\
    forall c, In c (elems (Children root)) ->
      Type_ c = "variable" \/ Type_ c = "constant" ->
      End c = Start c + Z.of_nat (String.length (Label c)).
Proof.
  apply (X7_value_node_span (sample_env "sample.go") sample_file noOutput).
  - vm_compute. reflexivity.
  - repeat constructor.
Defined.



(** ** The file that cannot be read *)

(** X10.  Default mode, a file the parser cannot read (no tree, an error):
    the run writes the one line [error: could not parse file <path>], puts
    nothing on standard output, and panics on the [nil] tree; the exit
    status is 2. *)
Theorem X10_unreadable_file `{GoLib} (e : Env) (err : error) (w : World) :
  modified e = false ->
  parsed e = (None, Some err) ->
  main e w
  = (Panic "runtime error: invalid memory address or nil pointer dereference",
     {| Stdout := Stdout w;
        Stderr := Stderr w ++ ["error: could not parse file " +:+ file e] |}) /\
  exitStatus (fst (main e w)) = 2.
Proof.
  intros Hm Hp.
  assert (Hf : fst (parsed e) = None) by (by rewrite Hp).
  rewrite (main_nil e w Hf). unfold errorsOfParse. by rewrite Hm, Hp.
Qed.

Lemma X10_unreadable_file_witness :
  main (sample_env "nothere.go") noOutput
  = (Panic "runtime error: invalid memory address or nil pointer dereference",
     {| Stdout := Stdout noOutput;
        Stderr := Stderr noOutput
                  ++ ["error: could not parse file " +:+ file (sample_env "nothere.go")] |}) /\
  exitStatus (fst (main (sample_env "nothere.go") noOutput)) = 2.
Proof.
  apply (X10_unreadable_file (sample_env "nothere.go")
           "open nothere.go: no such file or directory" noOutput).
  - reflexivity.
  - vm_compute. reflexivity.
Defined.

(** ** A declaration the parser could not read *)

(** X11.  A [BadDecl] among the declarations gives no child: the children
    are those of the declarations around it.  It gives one line on standard
    error, [error: unknown declaration @ ] followed by the position where
    the bad text starts, after the lines of the declarations before it. *)
Theorem X11_bad_decl_gives_no_node `{GoLib} (e : Env) (f : ast.File) (w : World)
    (pre post : list ast.Decl) (from to : token.Pos) :
  fst (parsed e) = Some f ->
  Forall receiverOK (ast.Decls f) ->
  ast.Decls f = pre ++ ast.BadDeclD from to :: post ->
  exists root w' before after,
    main_pkg e w = (Done [root], w') /\
    Children root = Some (flat_map nodesOfDecl pre ++ flat_map nodesOfDecl post) /\
    Stderr w' = Stderr w ++ before
                ++ ("error: unknown declaration @ " +:+ pretty from) :: after /\
    before = errorsOfParse e ++ flat_map errorsOfDecl pre /\
    after = flat_map errorsOfDecl post.
Proof.
  intros Hf OK Hd.
  exists (rootNode f), (logged (errorsOfParse e ++ errorsOfFile f) w).
  eexists _, _. split; [by apply main_pkg_done|].
  split.
  { unfold rootNode; simpl. f_equal. by rewrite (nodesOfFile_split f pre _ post Hd). }
  split; [|done].
  simpl. unfold errorsOfFile. rewrite Hd, flat_map_app. simpl.
  by rewrite <- !app_assoc.
Qed.

Lemma X11_bad_decl_gives_no_node_witness :
  exists root w' before after,
    @main_pkg badDeclLib (sample_env "bad.go") noOutput = (Done [root], w') /\
    Children root = Some (flat_map (@nodesOfDecl badDeclLib) []
                          ++ flat_map (@nodesOfDecl badDeclLib) []) /\
    Stderr w' = Stderr noOutput ++ before
                ++ ("error: unknown declaration @ " +:+ pretty 12) :: after /\
    before = @errorsOfParse badDeclLib (sample_env "bad.go")
             ++ flat_map (@errorsOfDecl badDeclLib) [] /\
    after = flat_map (@errorsOfDecl badDeclLib) [].
Proof.
  apply (@X11_bad_decl_gives_no_node badDeclLib (sample_env "bad.go") bad_file noOutput
           [] [] 12 16).
  - reflexivity.
  - repeat constructor.
  - reflexivity.
Defined.

(** The run on bad.go, as it ends. *)
Example bad_decl_run :
  @run badDeclLib (sample_env "bad.go")
  = (Done (),
     {| Stdout := [json.Array
                     [json.Object [("label", json.Str "p"); ("type", json.Str "package");
                                   ("start", json.Number 1); ("end", json.Number 16)]]];
        Stderr := ["error: could not parse file bad.go";
                   "error: unknown declaration @ 12"] |}).
Proof. by vm_compute. Qed.
